(** * check-signature: the demo-app API route that bridges a session key
      to a meta account

    Shallow embedding of [apps/demo-app/pages/api/check-signature.ts]:
    the request validator (presence pass and type pass), the signature
    check wrapper, the grant check and the handler that sequences them.

    The handler talks to three collaborators (the RPC client, the ADR-36
    verifier and the REST endpoint) and writes into a response object, so
    it is embedded in a small state-and-exception monad whose state holds
    the response under construction and a log of the collaborator calls. *)

From stdpp Require Import base strings gmap list.


(** ** Values that reach the handler *)

(** A Next.js query value: [string | string[]]; an absent key reads as
    [undefined], which is [None] of [option QueryVal] below. *)
Inductive QueryVal :=
  | QStr (s : string)
  | QArr (l : list string).

Record NextApiRequest := {
  query : gmap string QueryVal;
  method : option string
}.

(** Parsed JSON, as [res.json()] hands it over.  An object is the list of
    its own properties; a parsed object has each key once.  The handler
    never inspects a number, which is kept as its literal. *)
#[warnings="-register-all"]
Inductive Json :=
  | JNull
  | JBool (b : bool)
  | JNum (literal : string)
  | JStr (s : string)
  | JArr (items : list Json)
  | JObj (props : list (string * Json)).

(** What can be thrown or rejected while the handler runs. *)
Inductive Exn :=
  | TypeError (msg : string)
  | Rejected (reason : string).

(** ** The response object *)

Inductive Body :=
  | JsonErrors (errors : list string)      (* .json({ errors }) *)
  | JsonValid (valid : bool)               (* .json({ valid }) *)
  | EndText (text : string).               (* .end(text) *)

Record NextApiResponse := {
  headers : list (string * list string);
  statusCode : Z;
  body : option Body
}.

Definition fresh_response : NextApiResponse :=
  {| headers := []; statusCode := 200; body := None |}.

(** ** Collaborators *)

Record Pubkey := { pk_type : string; pk_value : string }.

Record Account := {
  address : string;
  pubkey : option Pubkey;
  accountNumber : Z;
  sequence : Z
}.

(** Calls that leave the process (or the module), in the order made. *)
Inductive Event :=
  | EConnect (rpc : string)
  | EGetAccount (addr : string)
  | EVerify (prefix signer msg : string)
  | EFetch (url : string).

(** [testnetChainInfo] of [@burnt-labs/constants]: only the three fields
    the route reads. *)
Record ChainInfo := {
  rpc : string;
  rest : string;
  bech32PrefixAccAddr : string
}.

(** The outside world of one request. *)
Record Env := {
  (* CosmWasmClient.connect(url): resolves, or rejects *)
  connect : string → Exn + unit;
  (* client.getAccount(address): Account | null, or rejects *)
  getAccount : string → Exn + option Account;
  (* Buffer.from(s, "hex").toString() and Buffer.from(s, "base64") *)
  hex_to_text : string → string;
  base64_to_bytes : string → list Byte.byte;
  (* verifyADR36Amino(prefix, signer, data, pubKey, signature) *)
  verifyADR36Amino :
    string → string → string → list Byte.byte → list Byte.byte → Exn + bool;
  (* fetch(url, { cache: "no-store" }) followed by res.json() *)
  fetch_json : string → Exn + Json
}.

(** ** The monad of the handler *)

Record World := {
  log : list Event;
  res : NextApiResponse
}.

Definition M (A : Type) : Type := World → (Exn + A) * World.

Definition ret {A} (a : A) : M A := λ w, (inr a, w).

Definition bind {A B} (m : M A) (k : A → M B) : M B :=
  λ w, match m w with
       | (inr a, w') => k a w'
       | (inl e, w') => (inl e, w')
       end.

Notation "x <- m ;; k" := (bind m (λ x, k))
  (at level 100, m at next level, right associativity).

(** An awaited or called collaborator: the call is logged, then its
    result is returned or its exception propagates. *)
Definition call {A} (ev : Event) (r : Exn + A) : M A :=
  λ w, (r, {| log := log w ++ [ev]; res := res w |}).

Definition modify_res (f : NextApiResponse → NextApiResponse) : M unit :=
  λ w, (inr tt, {| log := log w; res := f (res w) |}).

(* res.setHeader(name, values) *)
Definition setHeader (name : string) (values : list string) : M unit :=
  modify_res (λ r, {| headers := headers r ++ [(name, values)];
                      statusCode := statusCode r; body := body r |}).

(* res.status(code) *)
Definition status (code : Z) : M unit :=
  modify_res (λ r, {| headers := headers r; statusCode := code;
                      body := body r |}).

(* .json(...) and .end(...) *)
Definition send (b : Body) : M unit :=
  modify_res (λ r, {| headers := headers r; statusCode := statusCode r;
                      body := Some b |}).

(* A synchronous computation that may throw, run inside the handler. *)
Definition lift {A} (r : Exn + A) : M A := λ w, (r, w).

Definition start : World := {| log := []; res := fresh_response |}.

(** ** The declared shape of the grants response

    The interfaces at the top of the file.  They are erased at run time:
    [(await res.json()) as GrantsResponse] checks nothing. *)

Record Filter := { filter_type : string }.

Record Limit := { limit_type : string; remaining : string }.

Record GrantAuthorization := {
  contract : string;
  limit : Limit;
  filter : Filter
}.

Record Authorization := {
  authorization_type : string;
  authorization_grants : list GrantAuthorization
}.

Record Grant := {
  granter : string;
  grantee : string;
  authorization : Authorization;
  expiration : string
}.

Record Pagination := {
  next_key : option string;
  total : string
}.

Record GrantsResponse := {
  grants : list Grant;
  pagination : Pagination
}.

(** The parsed JSON that a value of the declared shape is. *)
Definition json_of_GrantAuthorization (a : GrantAuthorization) : Json :=
  JObj [("contract", JStr (contract a));
        ("limit", JObj [("@type", JStr (limit_type (limit a)));
                        ("remaining", JStr (remaining (limit a)))]);
        ("filter", JObj [("@type", JStr (filter_type (filter a)))])].

Definition json_of_Authorization (a : Authorization) : Json :=
  JObj [("@type", JStr (authorization_type a));
        ("grants", JArr (map json_of_GrantAuthorization (authorization_grants a)))].

Definition json_of_Grant (g : Grant) : Json :=
  JObj [("granter", JStr (granter g));
        ("grantee", JStr (grantee g));
        ("authorization", json_of_Authorization (authorization g));
        ("expiration", JStr (expiration g))].

Definition json_of_Pagination (p : Pagination) : Json :=
  JObj [("next_key", match next_key p with
                     | Some k => JStr k
                     | None => JNull
                     end);
        ("total", JStr (total p))].

Definition json_of_GrantsResponse (r : GrantsResponse) : Json :=
  JObj [("grants", JArr (map json_of_Grant (grants r)));
        ("pagination", json_of_Pagination (pagination r))].

(** ** JavaScript primitives the route relies on *)

(** [!v] for a destructured query value: [undefined] and the empty string
    are falsy, every other string and every array is truthy. *)
Definition not_ (v : option QueryVal) : bool :=
  match v with
  | None => true
  | Some (QStr "") => true
  | Some (QStr _) => false
  | Some (QArr _) => false
  end.

(** [typeof v === "string"]. *)
Definition isString (test : option QueryVal) : bool :=
  match test with
  | Some (QStr _) => true
  | _ => false
  end.

(** The string a value is once [isString] has narrowed it. *)
Definition narrowed (v : option QueryVal) : string :=
  match v with
  | Some (QStr s) => s
  | _ => ""
  end.

(** Template-literal rendering of [method]. *)
Definition render (m : option string) : string :=
  match m with
  | Some s => s
  | None => "undefined"
  end.

(** [method === "GET"]. *)
Definition is_GET (m : option string) : bool :=
  match m with
  | Some s => String.eqb s "GET"
  | None => false
  end.

(** Property read [o.key], for a key that no built-in prototype defines
    (the route reads [grants] and [grantee] only): reading from [null]
    throws, an object yields its own property or [undefined], every other
    value yields [undefined]. *)
Fixpoint own_property (key : string) (props : list (string * Json))
  : option Json :=
  match props with
  | [] => None
  | (k, v) :: rest => if String.eqb k key then Some v else own_property key rest
  end.

Definition get (o : Json) (key : string) : Exn + option Json :=
  match o with
  | JNull =>
      inl (TypeError ("Cannot read properties of null (reading '" +:+ key +:+ "')"))
  | JObj props => inr (own_property key props)
  | _ => inr None
  end.

(** [Array.prototype.map] with a callback that may throw: elements are
    visited left to right and the first exception aborts the call. *)
Fixpoint map_throwing {A B} (f : A → Exn + B) (l : list A) : Exn + list B :=
  match l with
  | [] => inr []
  | x :: rest =>
      match f x with
      | inl e => inl e
      | inr y =>
          match map_throwing f rest with
          | inl e => inl e
          | inr ys => inr (y :: ys)
          end
      end
  end.

(** [recv.map(f)] where [recv] came out of parsed JSON: only an array has
    a callable [map]. *)
Definition call_map {B} (recv : option Json) (f : Json → Exn + B)
  : Exn + list B :=
  match recv with
  | Some (JArr items) => map_throwing f items
  | None => inl (TypeError "Cannot read properties of undefined (reading 'map')")
  | Some JNull => inl (TypeError "Cannot read properties of null (reading 'map')")
  | Some _ => inl (TypeError "data.grants.map is not a function")
  end.

(** [arr.includes(s)] for a string [s]: SameValueZero makes an element
    equal to [s] exactly when it is the same string. *)
Definition includes (arr : list (option Json)) (s : string) : bool :=
  existsb (λ v, match v with
                | Some (JStr t) => String.eqb t s
                | _ => false
                end) arr.

(** ** The route *)

Section Route.

Variable testnetChainInfo : ChainInfo.
Variable env : Env.

(* Line 58: what checkGrants computes from the decoded body. *)
Definition grants_include (data : Json) (grantee : string) : Exn + bool :=
  match get data "grants" with
  | inl e => inl e
  | inr grants =>
      match call_map grants (λ grant, get grant "grantee") with
      | inl e => inl e
      | inr grantees => inr (includes grantees grantee)
      end
  end.

Definition grants_url (granter : string) : string :=
  rest testnetChainInfo +:+ "/cosmos/authz/v1beta1/grants/grantee/" +:+ granter.

Definition checkGrants (granter grantee : string) : M bool :=
  data <- call (EFetch (grants_url granter))
               (fetch_json env (grants_url granter)) ;;
  lift (grants_include data grantee).

Definition checkSignature (address pubKey messageString signature : string)
  : M bool :=
  let msg := hex_to_text env messageString in
  let uint8Signature := base64_to_bytes env signature in
  let pubKeyUint8Array := base64_to_bytes env pubKey in
  call (EVerify (bech32PrefixAccAddr testnetChainInfo) address msg)
       (verifyADR36Amino env (bech32PrefixAccAddr testnetChainInfo)
          address msg pubKeyUint8Array uint8Signature).

(* Lines 97-112: the pushes onto [errors], in order. *)
Definition presence_pass
  (userSessionAddress metaAccountAddress message signature : option QueryVal)
  : list string :=
  let errors := [] in
  let errors :=
    if not_ userSessionAddress
    then errors ++ ["userSessionAddress is required"] else errors in
  let errors :=
    if not_ metaAccountAddress && isString metaAccountAddress
    then errors ++ ["itemId is required"] else errors in
  let errors :=
    if not_ message && isString message
    then errors ++ ["message is required"] else errors in
  let errors :=
    if not_ signature && isString signature
    then errors ++ ["signature is required"] else errors in
  errors.

Definition handler (req : NextApiRequest) : M unit :=
  let query := query req in
  let method := method req in
  client <- call (EConnect (rpc testnetChainInfo))
                 (connect env (rpc testnetChainInfo)) ;;
  if is_GET method then
    let userSessionAddress := query !! "userSessionAddress" in
    let metaAccountAddress := query !! "metaAccountAddress" in
    let message := query !! "message" in
    let signature := query !! "signature" in
    let errors :=
      presence_pass userSessionAddress metaAccountAddress message signature in
    if (0 <? length errors)%nat then
      _ <- status 400 ;; send (JsonErrors errors)
    else if negb (isString userSessionAddress) then
      _ <- status 400 ;;
      send (JsonErrors ["userSessionAddress is required to be a string"])
    else if negb (isString metaAccountAddress) then
      _ <- status 400 ;;
      send (JsonErrors ["metaAccountAddress is required to be a string"])
    else if negb (isString message) then
      _ <- status 400 ;;
      send (JsonErrors ["message is required to be a string"])
    else if negb (isString signature) then
      _ <- status 400 ;;
      send (JsonErrors ["signature is required to be a string"])
    else
      let userSessionAddress := narrowed userSessionAddress in
      let metaAccountAddress := narrowed metaAccountAddress in
      let message := narrowed message in
      let signature := narrowed signature in
      account <- call (EGetAccount userSessionAddress)
                      (getAccount env userSessionAddress) ;;
      match account with
      | None => _ <- status 404 ;; send (JsonErrors ["account not found"])
      | Some account =>
          match pubkey account with
          | None =>
              _ <- status 404 ;; send (JsonErrors ["public key not found"])
          | Some pubkey =>
              isValid <- checkSignature userSessionAddress (pk_value pubkey)
                                        message signature ;;
              if negb isValid then
                _ <- status 400 ;; send (JsonErrors ["invalid signature"])
              else
                _ <- status 200 ;;
                valid <- checkGrants metaAccountAddress userSessionAddress ;;
                send (JsonValid valid)
          end
      end
  else
    _ <- setHeader "Allow" ["GET"] ;;
    _ <- status 405 ;;
    send (EndText ("Method " +:+ render method +:+ " Not Allowed")).

End Route.

(** ** Running the handler, and reading its outcome *)

Definition result {A} (m : M A) : Exn + A := fst (m start).
Definition calls {A} (m : M A) : list Event := log (snd (m start)).
Definition response {A} (m : M A) : NextApiResponse := res (snd (m start)).

(** A handler run that returned after [res.status(code).json({ errors })],
    having made exactly the calls [evs]. *)
Definition answered_errors (code : Z) (errors : list string) (evs : list Event)
  : (Exn + unit) * World :=
  (inr tt, {| log := evs;
              res := {| headers := []; statusCode := code;
                        body := Some (JsonErrors errors) |} |}).

(** The four required query parameters, in the order the route treats
    them. *)
Definition required : list string :=
  ["userSessionAddress"; "metaAccountAddress"; "message"; "signature"].

(** The four presence messages, in the order they are pushed. *)
Definition presence_messages : list string :=
  ["userSessionAddress is required"; "itemId is required";
   "message is required"; "signature is required"].

(** An error entry names a parameter when the parameter's name occurs in
    its text. *)
Definition names (param entry : string) : bool :=
  match String.index 0 param entry with
  | Some _ => true
  | None => false
  end.

(** A computation only ever appends to the call log. *)
Definition appends {A} (m : M A) : Prop :=
  ∀ w, ∃ later, log (snd (m w)) = log w ++ later.

(** ** Sample data *)

Definition sample_chain : ChainInfo :=
  {| rpc := "https://rpc.xion-testnet-1.burnt.com:443";
     rest := "https://api.xion-testnet-1.burnt.com";
     bech32PrefixAccAddr := "xion" |}.

(** A REST endpoint given by the bodies it serves; any other URL fails. *)
Fixpoint serve (table : list (string * Json)) (url : string) : Exn + Json :=
  match table with
  | [] => inl (Rejected "fetch failed")
  | (u, b) :: rest => if String.eqb u url then inr b else serve rest url
  end.

(** An environment given by whether the RPC endpoint is reachable, the
    account it knows (the same for every address), the verdict of the
    verifier, and what REST serves.  Its two decoders are stand-ins, not
    [Buffer.from]: the text is passed on as it is and the bytes are
    empty; the verdict does not depend on them. *)
Definition sample_env (up : bool) (account : option Account) (verdict : bool)
  (fetch : string → Exn + Json) : Env :=
  {| connect := λ _, if up then inr tt else inl (Rejected "connect ECONNREFUSED");
     getAccount := λ _, inr account;
     hex_to_text := λ s, s;
     base64_to_bytes := λ _, [];
     verifyADR36Amino := λ _ _ _ _ _, inr verdict;
     fetch_json := fetch |}.

Definition session_account : Account :=
  {| address := "xion1session";
     pubkey := Some {| pk_type := "tendermint/PubKeySecp256k1";
                       pk_value := "A08EGB7ro1ORuFhjOnZcSgwYlpe0DSFjVNUIkNNQxwKQ" |};
     accountNumber := 7;
     sequence := 1 |}.

Definition no_authorization : Authorization :=
  {| authorization_type := "/cosmwasm.wasm.v1.ContractExecutionAuthorization";
     authorization_grants := [] |}.

Definition sample_grant : Grant :=
  {| granter := "xion1meta"; grantee := "xion1session";
     authorization := no_authorization;
     expiration := "2030-01-01T00:00:00Z" |}.

Definition last_page : Pagination := {| next_key := None; total := "1" |}.

Definition GET (q : gmap string QueryVal) : NextApiRequest :=
  {| query := q; method := Some "GET" |}.

Definition other_grant : Grant :=
  {| granter := "xion1meta"; grantee := "xion1other";
     authorization := no_authorization;
     expiration := "2030-01-01T00:00:00Z" |}.

(** A registry that answers the grants query for [xion1meta] in two
    pages: the first carries a cursor, the second is reached with it. *)
Definition first_page : GrantsResponse :=
  {| grants := [other_grant];
     pagination := {| next_key := Some "AQ=="; total := "2" |} |}.

Definition second_page : GrantsResponse :=
  {| grants := [sample_grant]; pagination := last_page |}.

Definition two_page_registry : string → Exn + Json :=
  serve [(grants_url sample_chain "xion1meta",
          json_of_GrantsResponse first_page);
         (grants_url sample_chain "xion1meta" +:+ "?pagination.key=AQ==",
          json_of_GrantsResponse second_page)].

(** A registry whose single page for [xion1meta] holds the grant to the
    session address. *)
Definition one_page_registry : string → Exn + Json :=
  serve [(grants_url sample_chain "xion1meta",
          json_of_GrantsResponse second_page)].

Definition session_query : gmap string QueryVal :=
  {[ "userSessionAddress" := QStr "xion1session";
     "metaAccountAddress" := QStr "xion1meta";
     "message" := QStr "68656c6c6f";
     "signature" := QStr "c2lnbmF0dXJl" ]}.

(** Two bodies the REST endpoint may answer with: an empty grant list,
    and a grants field that is not a list. *)
Definition empty_grants_body : Json :=
  JObj [("grants", JArr []); ("pagination", json_of_Pagination last_page)].

Definition grants_text_body : Json := JObj [("grants", JStr "none")].

(** ** Requests that pass validation, and the steps after it *)

(** The request supplies the four parameters as the non-empty strings
    [usa], [meta], [msg] and [sig]. *)
Definition supplies (req : NextApiRequest) (usa meta msg sig : string) : Prop :=
  query req !! "userSessionAddress" = Some (QStr usa) ∧
  query req !! "metaAccountAddress" = Some (QStr meta) ∧
  query req !! "message" = Some (QStr msg) ∧
  query req !! "signature" = Some (QStr sig) ∧
  usa ≠ "" ∧ meta ≠ "" ∧ msg ≠ "" ∧ sig ≠ "".

(** The verifier's verdict on the arguments [checkSignature] builds for
    it from the session address, the account's key and the two encoded
    parameters. *)
Definition verdict_of (chain : ChainInfo) (env : Env) (usa : string)
  (pk : Pubkey) (msg sig : string) : Exn + bool :=
  verifyADR36Amino env (bech32PrefixAccAddr chain) usa (hex_to_text env msg)
    (base64_to_bytes env (pk_value pk)) (base64_to_bytes env sig).

(** The calls of a request that goes all the way, in order. *)
Definition full_run (chain : ChainInfo) (env : Env) (usa meta msg : string)
  : list Event :=
  [EConnect (rpc chain); EGetAccount usa;
   EVerify (bech32PrefixAccAddr chain) usa (hex_to_text env msg);
   EFetch (grants_url chain meta)].

(** The handler threw [e] after the calls [evs], leaving the status at
    [code] and nothing sent. *)
Definition threw (e : Exn) (code : Z) (evs : list Event)
  : (Exn + unit) * World :=
  (inl e, {| log := evs;
             res := {| headers := []; statusCode := code; body := None |} |}).

(** The handler returned after [res.status(200).json({ valid })]. *)
Definition answered_valid (valid : bool) (evs : list Event)
  : (Exn + unit) * World :=
  (inr tt, {| log := evs;
              res := {| headers := []; statusCode := 200;
                        body := Some (JsonValid valid) |} |}).

(** The handler returned after the 405 branch. *)
Definition answered_not_allowed (m : option string) (evs : list Event)
  : (Exn + unit) * World :=
  (inr tt, {| log := evs;
              res := {| headers := [("Allow", ["GET"])]; statusCode := 405;
                        body := Some (EndText ("Method " +:+ render m
                                               +:+ " Not Allowed")) |} |}).

(** An account whose key was never revealed. *)
Definition keyless_account : Account :=
  {| address := "xion1session"; pubkey := None;
     accountNumber := 7; sequence := 0 |}.

(** An environment whose collaborators are given one by one, with the
    same stand-in decoders as [sample_env]. *)
Definition env_of (conn : Exn + unit) (acct : Exn + option Account)
  (verdict : Exn + bool) (fetch : string → Exn + Json) : Env :=
  {| connect := λ _, conn;
     getAccount := λ _, acct;
     hex_to_text := λ s, s;
     base64_to_bytes := λ _, [];
     verifyADR36Amino := λ _ _ _ _ _, verdict;
     fetch_json := fetch |}.

(** What [grant.grantee] reads from an element that is not [null]. *)
Definition grantee_of (item : Json) : option Json :=
  match item with
  | JObj props => own_property "grantee" props
  | _ => None
  end.

(** A grants body that lists a matching grant and then a [null]. *)
Definition null_after_match_body : Json :=
  JObj [("grants", JArr [json_of_Grant sample_grant; JNull])].

(** A grants body whose elements are not all grants. *)
Definition ragged_body : Json :=
  JObj [("grants", JArr [JStr "xion1session"; JObj [("grantee", JNum "7")];
                         JObj [("grantee", JStr "xion1session")]])].

(** ** Facts about the monad *)

Lemma checkGrants_run chain env granter ge w :
  checkGrants chain env granter ge w =
  (match fetch_json env (grants_url chain granter) with
   | inl e => inl e
   | inr data => grants_include data ge
   end,
   {| log := log w ++ [EFetch (grants_url chain granter)]; res := res w |}).
Proof.
  unfold checkGrants, bind, call, lift.
  destruct (fetch_json env (grants_url chain granter)); reflexivity.
Qed.

(** The whole flow on the sample data: connect, resolve the account,
    verify, query the grants, answer. *)
Example handler_authorized :
  handler sample_chain
    (sample_env true (Some session_account) true one_page_registry)
    (GET session_query) start
  = (inr tt,
     {| log := [EConnect (rpc sample_chain);
                EGetAccount "xion1session";
                EVerify "xion" "xion1session" "68656c6c6f";
                EFetch "https://api.xion-testnet-1.burnt.com/cosmos/authz/v1beta1/grants/grantee/xion1meta"];
        res := {| headers := []; statusCode := 200;
                  body := Some (JsonValid true) |} |}).
Proof. vm_compute. reflexivity. Qed.

Example handler_account_not_found :
  handler sample_chain (sample_env true None true one_page_registry)
    (GET session_query) start
  = answered_errors 404 ["account not found"]
      [EConnect (rpc sample_chain); EGetAccount "xion1session"].
Proof. vm_compute. reflexivity. Qed.

Example handler_invalid_signature :
  handler sample_chain
    (sample_env true (Some session_account) false one_page_registry)
    (GET session_query) start
  = answered_errors 400 ["invalid signature"]
      [EConnect (rpc sample_chain); EGetAccount "xion1session";
       EVerify "xion" "xion1session" "68656c6c6f"].
Proof. vm_compute. reflexivity. Qed.

(** ** The grant matcher on a response of the declared shape *)

Lemma grantee_column (gs : list Grant) :
  map_throwing (λ grant, get grant "grantee") (map json_of_Grant gs)
  = inr (map (λ g, Some (JStr (grantee g))) gs).
Proof.
  induction gs as [|g gs IH]; [reflexivity|].
  cbn [map map_throwing]. rewrite IH. reflexivity.
Qed.

Lemma includes_grantee_column (gs : list Grant) (ge : string) :
  includes (map (λ g, Some (JStr (grantee g))) gs) ge
  = existsb (λ g, String.eqb (grantee g) ge) gs.
Proof.
  unfold includes. induction gs as [|g gs IH]; [reflexivity|].
  cbn [map existsb]. by rewrite IH.
Qed.

Lemma grants_include_declared (r : GrantsResponse) (ge : string) :
  grants_include (json_of_GrantsResponse r) ge
  = inr (existsb (λ g, String.eqb (grantee g) ge) (grants r)).
Proof.
  unfold grants_include. cbn [json_of_GrantsResponse get own_property String.eqb Ascii.eqb Bool.eqb call_map].
  rewrite grantee_column, includes_grantee_column. reflexivity.
Qed.

Lemma grantee_listed_iff (gs : list Grant) (ge : string) :
  existsb (λ g, String.eqb (grantee g) ge) gs = true
  ↔ ∃ g, g ∈ gs ∧ grantee g = ge.
Proof.
  rewrite existsb_exists. split.
  - intros (g & Hin & Heq). exists g. split; [by apply list_elem_of_In|].
    by apply String.eqb_eq.
  - intros (g & Hin & Heq). exists g. split; [by apply list_elem_of_In|].
    by apply String.eqb_eq.
Qed.

Lemma grantee_listed_column (gs : list Grant) (ge : string) :
  existsb (λ g, String.eqb (grantee g) ge) gs
  = existsb (λ a, String.eqb a ge) (map grantee gs).
Proof.
  induction gs as [|g gs IH]; [reflexivity|]. cbn [map existsb]. by rewrite IH.
Qed.

Lemma checkGrants_declared chain env (page : GrantsResponse) granter0 ge :
  fetch_json env (grants_url chain granter0) = inr (json_of_GrantsResponse page) →
  checkGrants chain env granter0 ge start
  = (inr (existsb (λ g, String.eqb (grantee g) ge) (grants page)),
     {| log := [EFetch (grants_url chain granter0)]; res := fresh_response |}).
Proof.
  intros Hfetch. rewrite checkGrants_run, Hfetch, grants_include_declared.
  reflexivity.
Qed.

(** C3. For every grant page and every {granter, grantee} pair, the grant
    matcher returns true exactly when some grant record of the page has a
    grantee field equal, as a string, to the supplied grantee; it never
    fails on such a page, and a page with the same grantee column, whatever
    its granter, authorization and expiration fields, gives the same
    answer. *)
Theorem checkGrants_iff_grantee_listed chain env (page : GrantsResponse)
    (granter0 ge : string) :
  fetch_json env (grants_url chain granter0) = inr (json_of_GrantsResponse page) →
  (∃ b, result (checkGrants chain env granter0 ge) = inr b ∧
        (b = true ↔ ∃ g, g ∈ grants page ∧ grantee g = ge)) ∧
  (∀ env' page' granter',
     fetch_json env' (grants_url chain granter')
       = inr (json_of_GrantsResponse page') →
     map grantee (grants page') = map grantee (grants page) →
     result (checkGrants chain env' granter' ge)
     = result (checkGrants chain env granter0 ge)).
Proof.
  intros Hfetch. split.
  - eexists. split.
    + unfold result. rewrite (checkGrants_declared _ _ page) by done.
      reflexivity.
    + apply grantee_listed_iff.
  - intros env' page' granter' Hfetch' Hcol. unfold result.
    rewrite (checkGrants_declared chain env page),
      (checkGrants_declared chain env' page') by done.
    cbn [fst]. by rewrite !grantee_listed_column, Hcol.
Qed.

Lemma checkGrants_iff_grantee_listed_witness :
  (∃ b, result (checkGrants sample_chain
                  (sample_env true None false two_page_registry)
                  "xion1meta" "xion1other") = inr b ∧
        (b = true ↔ ∃ g, g ∈ grants first_page ∧ grantee g = "xion1other")).
Proof.
  apply (checkGrants_iff_grantee_listed sample_chain
           (sample_env true None false two_page_registry) first_page
           "xion1meta" "xion1other").
  reflexivity.
Defined.

(** String equality is exact: a grantee that differs only in letter case
    is not matched. *)
Example checkGrants_case_sensitive :
  result (checkGrants sample_chain
            (sample_env true None false two_page_registry)
            "xion1meta" "XION1OTHER") = inr false.
Proof. reflexivity. Qed.

(** C2, as amended.  On a page holding exactly one grant, from X to Y with
    X and Y distinct, the grant check answers true for (granter X,
    grantee Y), false for the reversed pair, and false for every pair
    whose grantee is not Y.  The granter of the pair is only the key of
    the query: with grantee Y the answer is true whatever the granter. *)
Theorem checkGrants_single_grant chain env (g : Grant) (pg : Pagination) :
  granter g ≠ grantee g →
  (∀ url, fetch_json env url
          = inr (json_of_GrantsResponse {| grants := [g]; pagination := pg |})) →
  result (checkGrants chain env (granter g) (grantee g)) = inr true ∧
  result (checkGrants chain env (grantee g) (granter g)) = inr false ∧
  (∀ Z W, W ≠ grantee g → result (checkGrants chain env Z W) = inr false) ∧
  (∀ Z, result (checkGrants chain env Z (grantee g)) = inr true).
Proof.
  intros Hdistinct Hfetch.
  assert (Hrun : ∀ Z W, result (checkGrants chain env Z W)
                        = inr (String.eqb (grantee g) W || false)).
  { intros Z W. unfold result.
    by rewrite (checkGrants_declared chain env _ Z W (Hfetch _)). }
  repeat split.
  - rewrite Hrun, String.eqb_refl. reflexivity.
  - rewrite Hrun.
    assert (grantee g ≠ granter g) as ->%String.eqb_neq by congruence.
    reflexivity.
  - intros Z W HW. rewrite Hrun.
    assert (grantee g ≠ W) as ->%String.eqb_neq by congruence. reflexivity.
  - intros Z. rewrite Hrun, String.eqb_refl. reflexivity.
Qed.

Lemma checkGrants_single_grant_witness :
  let env := sample_env true None false
               (λ _, inr (json_of_GrantsResponse second_page)) in
  result (checkGrants sample_chain env "xion1meta" "xion1session") = inr true ∧
  result (checkGrants sample_chain env "xion1session" "xion1meta") = inr false.
Proof.
  intros env.
  destruct (checkGrants_single_grant sample_chain env sample_grant last_page)
    as (Hxy & Hyx & _).
  - discriminate.
  - reflexivity.
  - exact (conj Hxy Hyx).
Defined.

(** The page holds the one grant xion1meta -> xion1session; the pair
    (xion1stranger, xion1session) has no grant in it and is answered
    true. *)
Lemma checkGrants_absent_pair_counterexample :
  let page := {| grants := [sample_grant]; pagination := last_page |} in
  let env := sample_env true None false
               (λ _, inr (json_of_GrantsResponse page)) in
  ("xion1stranger", "xion1session") ≠ (granter sample_grant, grantee sample_grant)
  ∧ result (checkGrants sample_chain env "xion1stranger" "xion1session")
    = inr true
  ∧ ¬ (∀ Z W, (Z, W) ≠ (granter sample_grant, grantee sample_grant) →
              result (checkGrants sample_chain env Z W) = inr false).
Proof.
  intros page env. split; [discriminate|]. split; [reflexivity|].
  intros Hclaim.
  specialize (Hclaim "xion1stranger" "xion1session").
  discriminate Hclaim. discriminate.
Qed.

(** C4, as amended.  A response whose grant list is empty makes the grant
    check answer false, with no error.  A response whose grants field is
    absent, or is anything but a list, makes the check throw a TypeError:
    it does not answer false. *)
Theorem checkGrants_empty_or_malformed chain env granter0 ge (data : Json) :
  fetch_json env (grants_url chain granter0) = inr data →
  (get data "grants" = inr (Some (JArr [])) →
   result (checkGrants chain env granter0 ge) = inr false) ∧
  ((∀ items, get data "grants" ≠ inr (Some (JArr items))) →
   ∃ msg, result (checkGrants chain env granter0 ge) = inl (TypeError msg)).
Proof.
  intros Hfetch. unfold result. rewrite checkGrants_run, Hfetch. cbn [fst].
  unfold grants_include. split.
  - intros ->. reflexivity.
  - intros Hmalformed. destruct (get data "grants") as [e|[v|]] eqn:Hget.
    + destruct data; try discriminate. injection Hget as <-. eauto.
    + destruct v; cbn [call_map]; eauto. by destruct (Hmalformed items).
    + cbn [call_map]. eauto.
Qed.

Lemma checkGrants_empty_or_malformed_witness :
  result (checkGrants sample_chain
            (sample_env true None false (λ _, inr empty_grants_body))
            "xion1meta" "xion1session") = inr false
  ∧ ∃ msg, result (checkGrants sample_chain
                     (sample_env true None false (λ _, inr grants_text_body))
                     "xion1meta" "xion1session") = inl (TypeError msg).
Proof.
  split.
  - refine (proj1 (checkGrants_empty_or_malformed sample_chain
                     (sample_env true None false (λ _, inr empty_grants_body))
                     "xion1meta" "xion1session" empty_grants_body eq_refl) _).
    reflexivity.
  - refine (proj2 (checkGrants_empty_or_malformed sample_chain
                     (sample_env true None false (λ _, inr grants_text_body))
                     "xion1meta" "xion1session" grants_text_body eq_refl) _).
    intros items. discriminate.
Defined.

(** A response without a grants field: the check throws instead of
    answering false. *)
Lemma checkGrants_malformed_counterexample :
  let env := sample_env true None false (λ _, inr (JObj [])) in
  result (checkGrants sample_chain env "xion1meta" "xion1session")
  = inl (TypeError "Cannot read properties of undefined (reading 'map')")
  ∧ result (checkGrants sample_chain env "xion1meta" "xion1session")
    ≠ inr false.
Proof. split; [reflexivity | discriminate]. Qed.

(** ** The request validator *)

Lemma not_true_iff (v : option QueryVal) :
  not_ v = true ↔ v = None ∨ v = Some (QStr "").
Proof.
  destruct v as [[[|a s]|l]|]; cbn; split; intros H; try done; auto.
  - destruct H; discriminate.
  - destruct H; discriminate.
Qed.

Lemma empty_string_iff (v : option QueryVal) :
  not_ v && isString v = true ↔ v = Some (QStr "").
Proof. destruct v as [[[|a s]|l]|]; cbn; split; intros H; done. Qed.

Lemma presence_pass_pushes usa meta msg sig :
  presence_pass usa meta msg sig
  = (if not_ usa then ["userSessionAddress is required"] else [])
    ++ (if not_ meta && isString meta then ["itemId is required"] else [])
    ++ (if not_ msg && isString msg then ["message is required"] else [])
    ++ (if not_ sig && isString sig then ["signature is required"] else []).
Proof.
  unfold presence_pass.
  destruct (not_ usa), (not_ meta && isString meta),
    (not_ msg && isString msg), (not_ sig && isString sig); reflexivity.
Qed.

Lemma is_GET_true (m : option string) : is_GET m = true ↔ m = Some "GET".
Proof.
  destruct m as [s|]; cbn; [|done].
  rewrite String.eqb_eq. split; congruence.
Qed.

Lemma is_GET_false (m : option string) : is_GET m = false ↔ m ≠ Some "GET".
Proof.
  rewrite <- is_GET_true. destruct (is_GET m); split; congruence.
Qed.

(** Once connected, a GET request whose presence pass pushed something is
    answered 400 with exactly what was pushed. *)
Lemma handler_presence_failure chain env req :
  connect env (rpc chain) = inr tt →
  method req = Some "GET" →
  presence_pass (query req !! "userSessionAddress")
    (query req !! "metaAccountAddress") (query req !! "message")
    (query req !! "signature") ≠ [] →
  handler chain env req start
  = answered_errors 400
      (presence_pass (query req !! "userSessionAddress")
         (query req !! "metaAccountAddress") (query req !! "message")
         (query req !! "signature"))
      [EConnect (rpc chain)].
Proof.
  intros Hconn Hget Herrs. unfold handler, bind, call.
  rewrite Hconn. cbn [start log res app].
  apply is_GET_true in Hget as ->.
  destruct (presence_pass _ _ _ _) as [|e errors]; [done|]. reflexivity.
Qed.

(** Membership of a literal in a literal list, by evaluation. *)
Ltac listed := apply (bool_decide_unpack _); vm_compute; exact I.
Ltac not_listed H :=
  exfalso; revert H; apply (bool_decide_unpack (¬ _)); vm_compute; exact I.

(** X15.  What the presence pass collects.  For every GET request (the
    connection made at handler entry having succeeded) the four presence
    checks run independently: "userSessionAddress is required" is pushed
    exactly when userSessionAddress is absent or empty, and "itemId is
    required", "message is required", "signature is required" exactly
    when metaAccountAddress, message, signature is present as the empty
    string.  The list holds these entries in that order and nothing else,
    and when it is not empty it is the error list of the 400 response. *)
Theorem presence_pass_collects_every_failure chain env req :
  connect env (rpc chain) = inr tt →
  method req = Some "GET" →
  let usa := query req !! "userSessionAddress" in
  let meta := query req !! "metaAccountAddress" in
  let msg := query req !! "message" in
  let sig := query req !! "signature" in
  let errors := presence_pass usa meta msg sig in
  ("userSessionAddress is required" ∈ errors
     ↔ usa = None ∨ usa = Some (QStr "")) ∧
  ("itemId is required" ∈ errors ↔ meta = Some (QStr "")) ∧
  ("message is required" ∈ errors ↔ msg = Some (QStr "")) ∧
  ("signature is required" ∈ errors ↔ sig = Some (QStr "")) ∧
  sublist errors presence_messages ∧
  (errors ≠ [] →
   handler chain env req start
   = answered_errors 400 errors [EConnect (rpc chain)]).
Proof.
  intros Hconn Hget usa meta msg sig errors.
  split; [|split; [|split; [|split; [|split]]]].
  6: { intros Herrs. by apply handler_presence_failure. }
  all: subst errors; rewrite presence_pass_pushes.
  1: rewrite <- not_true_iff.
  2: rewrite <- (empty_string_iff meta).
  3: rewrite <- (empty_string_iff msg).
  4: rewrite <- (empty_string_iff sig).
  all: destruct (not_ usa), (not_ meta && isString meta),
         (not_ msg && isString msg), (not_ sig && isString sig);
       cbn [app]; unfold presence_messages.
  all: try (split; [done | intros _; listed]).
  all: try (split; [intros Hin; by not_listed Hin | done]).
  all: repeat first [ apply sublist_nil | apply sublist_skip; [idtac]
                    | apply sublist_cons ].
Qed.

Lemma presence_pass_collects_every_failure_witness :
  let q : gmap string QueryVal :=
    {[ "userSessionAddress" := QStr ""; "metaAccountAddress" := QStr "";
       "message" := QStr "68656c6c6f" ]} in
  handler sample_chain (sample_env true None false two_page_registry)
    (GET q) start
  = answered_errors 400
      ["userSessionAddress is required"; "itemId is required"]
      [EConnect (rpc sample_chain)].
Proof.
  intros q.
  refine (proj2 (proj2 (proj2 (proj2 (proj2
    (presence_pass_collects_every_failure sample_chain
       (sample_env true None false two_page_registry) (GET q)
       eq_refl eq_refl))))) _).
  vm_compute. discriminate.
Defined.

(** C1 (a defect of the code).  The presence pass does not collect an
    entry for each absent parameter.  With metaAccountAddress and message
    both absent (the other two well formed, the ledger reachable) the
    guard [typeof x === "string"] keeps both checks from firing: the
    presence pass collects nothing, and the 400 response carries the
    single entry of the type pass, for metaAccountAddress; message is not
    named at all. *)
Theorem presence_pass_misses_absent_parameters :
  let q : gmap string QueryVal :=
    {[ "userSessionAddress" := QStr "xion1session";
       "signature" := QStr "c2lnbmF0dXJl" ]} in
  q !! "metaAccountAddress" = None ∧ q !! "message" = None ∧
  presence_pass (q !! "userSessionAddress") (q !! "metaAccountAddress")
    (q !! "message") (q !! "signature") = [] ∧
  handler sample_chain (sample_env true None false two_page_registry)
    (GET q) start
  = answered_errors 400 ["metaAccountAddress is required to be a string"]
      [EConnect (rpc sample_chain)] ∧
  names "message" "metaAccountAddress is required to be a string" = false.
Proof. intros q. repeat split; vm_compute; reflexivity. Qed.

(** C9, as amended.  For every GET request (the connection made at
    handler entry having succeeded) whose metaAccountAddress is present as the empty
    string, the response is a 400 whose error list contains the text
    "itemId is required"; that text does not name metaAccountAddress, and
    neither does any other entry of the list. *)
Theorem empty_metaAccountAddress_reported_as_itemId chain env req :
  connect env (rpc chain) = inr tt →
  method req = Some "GET" →
  query req !! "metaAccountAddress" = Some (QStr "") →
  ∃ errors,
    handler chain env req start
    = answered_errors 400 errors [EConnect (rpc chain)] ∧
    "itemId is required" ∈ errors ∧
    names "metaAccountAddress" "itemId is required" = false ∧
    ∀ e, e ∈ errors → names "metaAccountAddress" e = false.
Proof.
  intros Hconn Hget Hmeta.
  pose proof (handler_presence_failure chain env req Hconn Hget) as Hrun.
  revert Hrun. rewrite presence_pass_pushes, Hmeta.
  cbn [not_ isString andb].
  generalize (query req !! "userSessionAddress") (query req !! "message")
    (query req !! "signature").
  intros usa msg sig Hrun. eexists. split.
  - apply Hrun. destruct (not_ usa); discriminate.
  - destruct (not_ usa), (not_ msg && isString msg), (not_ sig && isString sig);
      cbn [app]; (split; [listed|]); (split; [reflexivity|]); intros e He;
      repeat (apply elem_of_cons in He as [->|He]; [reflexivity|]);
      by apply elem_of_nil in He.
Qed.

Lemma empty_metaAccountAddress_reported_as_itemId_witness :
  let q : gmap string QueryVal :=
    <[ "metaAccountAddress" := QStr "" ]> session_query in
  ∃ errors,
    handler sample_chain (sample_env true None false two_page_registry)
      (GET q) start
    = answered_errors 400 errors [EConnect (rpc sample_chain)] ∧
    "itemId is required" ∈ errors.
Proof.
  intros q.
  destruct (empty_metaAccountAddress_reported_as_itemId sample_chain
              (sample_env true None false two_page_registry) (GET q)
              eq_refl eq_refl eq_refl) as (errors & Hrun & Hin & _).
  exists errors. exact (conj Hrun Hin).
Defined.

(** The RPC endpoint is unreachable: a GET request with metaAccountAddress
    present as the empty string gets no 400 and no error list, the handler
    fails at its first line with nothing sent. *)
Lemma empty_metaAccountAddress_unreachable_counterexample :
  let q : gmap string QueryVal :=
    <[ "metaAccountAddress" := QStr "" ]> session_query in
  q !! "metaAccountAddress" = Some (QStr "") ∧
  handler sample_chain (sample_env false None false two_page_registry)
    (GET q) start
  = threw (Rejected "connect ECONNREFUSED") 200 [EConnect (rpc sample_chain)] ∧
  ¬ ∃ errors,
      body (response (handler sample_chain
                        (sample_env false None false two_page_registry)
                        (GET q)))
      = Some (JsonErrors errors).
Proof.
  intros q. split; [vm_compute; reflexivity|]. split; [vm_compute; reflexivity|].
  intros [errors H]. vm_compute in H. discriminate H.
Qed.

(** C6, as amended.  For each of the four required parameters: a GET
    request (the connection made at handler entry having succeeded) that omits that
    parameter, or supplies it as an array, while the other three are
    non-empty strings, is answered 400 with an error list that has an
    entry naming the parameter. *)
Theorem missing_or_array_parameter_is_named chain env req (p : string) :
  connect env (rpc chain) = inr tt →
  method req = Some "GET" →
  p ∈ required →
  (query req !! p = None ∨ ∃ l, query req !! p = Some (QArr l)) →
  (∀ p', p' ∈ required → p' ≠ p →
         ∃ a s, query req !! p' = Some (QStr (String a s))) →
  ∃ errors,
    handler chain env req start
    = answered_errors 400 errors [EConnect (rpc chain)] ∧
    ∃ e, e ∈ errors ∧ names p e = true.
Proof.
  intros Hconn Hget Hp Hbad Hothers.
  apply is_GET_true in Hget.
  assert (Hrest : ∀ p', p' ∈ required →
            p' = p ∨ ∃ a s, query req !! p' = Some (QStr (String a s))).
  { intros p' Hp'. destruct (decide (p' = p)); [by left | right; eauto]. }
  pose proof (Hrest "userSessionAddress" ltac:(listed)) as Husa.
  pose proof (Hrest "metaAccountAddress" ltac:(listed)) as Hmeta.
  pose proof (Hrest "message" ltac:(listed)) as Hmsg.
  pose proof (Hrest "signature" ltac:(listed)) as Hsig.
  clear Hrest Hothers.
  unfold required in Hp.
  repeat (apply elem_of_cons in Hp as [->|Hp]); [..|by apply elem_of_nil in Hp].
  all: repeat match goal with
         | H : ?x = ?x ∨ _ |- _ => clear H
         | H : _ = _ ∨ _ |- _ => destruct H as [?|(? & ? & ?)]; [discriminate|]
         end.
  all: unfold handler, bind, call; rewrite Hconn, Hget;
       destruct Hbad as [Hbad|[l Hbad]];
       repeat match goal with H : _ !! _ = _ |- _ => rewrite H; clear H end;
       eexists; (split; [reflexivity|]);
       eexists; (split; [apply list_elem_of_here | reflexivity]).
Qed.

Lemma missing_or_array_parameter_is_named_witness :
  let q : gmap string QueryVal :=
    <[ "message" := QArr ["68656c6c6f"; "776f726c64"] ]> session_query in
  ∃ errors,
    handler sample_chain (sample_env true None false two_page_registry)
      (GET q) start
    = answered_errors 400 errors [EConnect (rpc sample_chain)] ∧
    ∃ e, e ∈ errors ∧ names "message" e = true.
Proof.
  intros q.
  apply (missing_or_array_parameter_is_named sample_chain
           (sample_env true None false two_page_registry) (GET q) "message").
  - reflexivity.
  - reflexivity.
  - listed.
  - right. eexists. vm_compute. reflexivity.
  - intros p' Hp' Hne. unfold required in Hp'.
    repeat (apply elem_of_cons in Hp' as [->|Hp']);
      [..|by apply elem_of_nil in Hp']; try done;
      do 2 eexists; vm_compute; reflexivity.
Defined.

(** Two requests that omit message and are not answered with an entry
    naming it.  In the first metaAccountAddress is the empty string: the
    presence pass answers for it alone and the type pass never runs.  In
    the second the RPC endpoint is unreachable: there is no answer. *)
Lemma missing_parameter_unnamed_counterexample :
  let q1 : gmap string QueryVal :=
    {[ "userSessionAddress" := QStr "xion1session";
       "metaAccountAddress" := QStr "";
       "signature" := QStr "c2lnbmF0dXJl" ]} in
  let q2 : gmap string QueryVal := delete "message" session_query in
  (q1 !! "message" = None ∧
   handler sample_chain (sample_env true None false two_page_registry)
     (GET q1) start
   = answered_errors 400 ["itemId is required"] [EConnect (rpc sample_chain)] ∧
   names "message" "itemId is required" = false) ∧
  (q2 !! "message" = None ∧
   handler sample_chain (sample_env false None false two_page_registry)
     (GET q2) start
   = threw (Rejected "connect ECONNREFUSED") 200 [EConnect (rpc sample_chain)]).
Proof. intros q1 q2. repeat split; vm_compute; reflexivity. Qed.

(** C7, as amended.  The type pass stops at its first failure.  For a GET
    request (the connection made at handler entry having succeeded) that the presence
    pass let through, if [p] is the first of userSessionAddress,
    metaAccountAddress, message, signature whose value is not a string,
    the 400 response carries the single entry for [p], however many later
    fields fail too. *)
Theorem type_pass_first_failure_wins chain env req (p : string) :
  connect env (rpc chain) = inr tt →
  method req = Some "GET" →
  presence_pass (query req !! "userSessionAddress")
    (query req !! "metaAccountAddress") (query req !! "message")
    (query req !! "signature") = [] →
  find (λ f, negb (isString (query req !! f))) required = Some p →
  handler chain env req start
  = answered_errors 400 [p +:+ " is required to be a string"]
      [EConnect (rpc chain)].
Proof.
  intros Hconn Hget Hpresence Hfirst.
  apply is_GET_true in Hget.
  unfold handler, bind, call. rewrite Hconn, Hget, Hpresence.
  cbn [length Nat.ltb Nat.leb]. unfold required in Hfirst. cbn [find] in Hfirst.
  destruct (isString (query req !! "userSessionAddress"));
    [|injection Hfirst as <-; reflexivity].
  destruct (isString (query req !! "metaAccountAddress"));
    [|injection Hfirst as <-; reflexivity].
  destruct (isString (query req !! "message"));
    [|injection Hfirst as <-; reflexivity].
  destruct (isString (query req !! "signature"));
    [|injection Hfirst as <-; reflexivity].
  discriminate.
Qed.

Lemma type_pass_first_failure_wins_witness :
  let q : gmap string QueryVal :=
    {[ "userSessionAddress" := QStr "xion1session";
       "metaAccountAddress" := QArr ["xion1meta"; "xion1other"];
       "signature" := QArr [] ]} in
  handler sample_chain (sample_env true None false two_page_registry)
    (GET q) start
  = answered_errors 400 ["metaAccountAddress is required to be a string"]
      [EConnect (rpc sample_chain)].
Proof.
  intros q.
  apply (type_pass_first_failure_wins sample_chain
           (sample_env true None false two_page_registry) (GET q)
           "metaAccountAddress"); vm_compute; reflexivity.
Defined.

(** Two requests in which metaAccountAddress and message both fail the
    string check and the answer is not the entry for metaAccountAddress.
    In the first userSessionAddress is empty: the presence pass answers
    and the type pass never runs.  In the second the RPC endpoint is
    unreachable: there is no answer. *)
Lemma type_pass_not_reached_counterexample :
  let q1 : gmap string QueryVal :=
    {[ "userSessionAddress" := QStr "";
       "metaAccountAddress" := QArr ["xion1meta"; "xion1other"];
       "message" := QArr ["68656c6c6f"; "776f726c64"];
       "signature" := QStr "c2lnbmF0dXJl" ]} in
  let q2 : gmap string QueryVal :=
    <[ "userSessionAddress" := QStr "xion1session" ]> q1 in
  (find (λ f, negb (isString (q1 !! f))) required = Some "metaAccountAddress" ∧
   isString (q1 !! "message") = false ∧
   handler sample_chain (sample_env true None false two_page_registry)
     (GET q1) start
   = answered_errors 400 ["userSessionAddress is required"]
       [EConnect (rpc sample_chain)]) ∧
  (find (λ f, negb (isString (q2 !! f))) required = Some "metaAccountAddress" ∧
   isString (q2 !! "message") = false ∧
   handler sample_chain (sample_env false None false two_page_registry)
     (GET q2) start
   = threw (Rejected "connect ECONNREFUSED") 200 [EConnect (rpc sample_chain)]).
Proof. intros q1 q2. repeat split; vm_compute; reflexivity. Qed.

(** C8, as amended.  For every request whose method is not GET (the
    connection made at handler entry having succeeded) the handler answers 405 with the
    header Allow: GET.  It reads nothing of the query (any other query
    gives the same outcome), and makes no account lookup, no signature
    verification and no grant query. *)
Theorem non_GET_is_method_not_allowed chain env req :
  connect env (rpc chain) = inr tt →
  method req ≠ Some "GET" →
  response (handler chain env req)
  = {| headers := [("Allow", ["GET"])]; statusCode := 405;
       body := Some (EndText ("Method " +:+ render (method req)
                              +:+ " Not Allowed")) |} ∧
  result (handler chain env req) = inr tt ∧
  calls (handler chain env req) = [EConnect (rpc chain)] ∧
  ∀ q', handler chain env {| query := q'; method := method req |} start
        = handler chain env req start.
Proof.
  intros Hconn Hmethod. apply is_GET_false in Hmethod.
  unfold response, result, calls, handler, bind, call.
  cbn [query method]. rewrite Hconn, Hmethod. repeat split.
Qed.

Lemma non_GET_is_method_not_allowed_witness :
  response (handler sample_chain
              (sample_env true (Some session_account) true two_page_registry)
              {| query := session_query; method := Some "POST" |})
  = {| headers := [("Allow", ["GET"])]; statusCode := 405;
       body := Some (EndText "Method POST Not Allowed") |}.
Proof.
  refine (proj1 (non_GET_is_method_not_allowed sample_chain
                   (sample_env true (Some session_account) true
                      two_page_registry)
                   {| query := session_query; method := Some "POST" |}
                   eq_refl _)).
  discriminate.
Defined.

(** A POST while the RPC endpoint is unreachable: the handler fails at its
    first line, with no 405, no Allow header and nothing sent. *)
Lemma non_GET_unreachable_counterexample :
  handler sample_chain
    (sample_env false (Some session_account) true two_page_registry)
    {| query := session_query; method := Some "POST" |} start
  = threw (Rejected "connect ECONNREFUSED") 200 [EConnect (rpc sample_chain)] ∧
  statusCode (response (handler sample_chain
                          (sample_env false (Some session_account) true
                             two_page_registry)
                          {| query := session_query; method := Some "POST" |}))
  ≠ 405%Z.
Proof. split; [vm_compute; reflexivity | vm_compute; discriminate]. Qed.

(** C5, as amended.  The grant check reads one page: it makes a single
    fetch, of the grants URL without a pagination key, and answers from
    the grants of that page alone.  The cursor of the response is not
    read and no later page is requested, so when no grant of the first
    page matches the answer is false, whatever later pages hold. *)
Theorem checkGrants_reads_first_page_only chain env (page : GrantsResponse)
    (granter0 ge : string) :
  fetch_json env (grants_url chain granter0) = inr (json_of_GrantsResponse page) →
  calls (checkGrants chain env granter0 ge)
  = [EFetch (grants_url chain granter0)] ∧
  ((∀ g, g ∈ grants page → grantee g ≠ ge) →
   result (checkGrants chain env granter0 ge) = inr false) ∧
  (∀ env' cursor',
     fetch_json env' (grants_url chain granter0)
     = inr (json_of_GrantsResponse
              {| grants := grants page; pagination := cursor' |}) →
     result (checkGrants chain env' granter0 ge)
     = result (checkGrants chain env granter0 ge)).
Proof.
  intros Hfetch. unfold calls, result.
  rewrite (checkGrants_declared chain env page) by done.
  split; [reflexivity|]. split.
  - intros Hnone. cbn [fst]. f_equal.
    apply not_true_is_false. rewrite grantee_listed_iff.
    intros (g & Hin & Heq). by apply (Hnone g).
  - intros env' cursor' Hfetch'.
    by rewrite (checkGrants_declared chain env' _ _ _ Hfetch').
Qed.

Lemma checkGrants_reads_first_page_only_witness :
  calls (checkGrants sample_chain
           (sample_env true None false two_page_registry)
           "xion1meta" "xion1session")
  = [EFetch (grants_url sample_chain "xion1meta")] ∧
  result (checkGrants sample_chain
            (sample_env true None false two_page_registry)
            "xion1meta" "xion1session") = inr false.
Proof.
  destruct (checkGrants_reads_first_page_only sample_chain
              (sample_env true None false two_page_registry) first_page
              "xion1meta" "xion1session" eq_refl) as (Hcalls & Hnone & _).
  split; [exact Hcalls|]. apply Hnone.
  intros g Hin. apply list_elem_of_singleton in Hin as ->. discriminate.
Defined.

(** The registry serves the grants of xion1meta in two pages, the first
    with a cursor; the grant to xion1session is on the second.  The
    session's signature verifies, and the handler answers valid: false
    after a single fetch. *)
Lemma handler_second_page_counterexample :
  next_key (pagination first_page) = Some "AQ==" ∧
  two_page_registry (grants_url sample_chain "xion1meta" +:+ "?pagination.key=AQ==")
  = inr (json_of_GrantsResponse second_page) ∧
  (∃ g, g ∈ grants second_page ∧
        granter g = "xion1meta" ∧ grantee g = "xion1session") ∧
  handler sample_chain
    (sample_env true (Some session_account) true two_page_registry)
    (GET session_query) start
  = (inr tt,
     {| log := [EConnect (rpc sample_chain);
                EGetAccount "xion1session";
                EVerify "xion" "xion1session" "68656c6c6f";
                EFetch (grants_url sample_chain "xion1meta")];
        res := {| headers := []; statusCode := 200;
                  body := Some (JsonValid false) |} |}).
Proof.
  split; [reflexivity|]. split; [reflexivity|]. split.
  - exists sample_grant. split; [by apply list_elem_of_singleton|]. split; reflexivity.
  - vm_compute. reflexivity.
Qed.

(** ** The call log only grows *)

Section Log.

Context {A B : Type}.

Lemma appends_ret (a : A) : appends (ret a).
Proof. intros w. exists []. cbn. by rewrite app_nil_r. Qed.

Lemma appends_lift (r : Exn + A) : appends (lift r).
Proof. intros w. exists []. cbn. by rewrite app_nil_r. Qed.

Lemma appends_call (ev : Event) (r : Exn + A) : appends (call ev r).
Proof. intros w. by exists [ev]. Qed.

Lemma appends_bind (m : M A) (k : A → M B) :
  appends m → (∀ a, appends (k a)) → appends (bind m k).
Proof.
  intros Hm Hk w. unfold bind. destruct (Hm w) as [l1 H1].
  destruct (m w) as [[e|a] w1]; cbn [snd] in *; [by exists l1|].
  destruct (Hk a w1) as [l2 H2]. exists (l1 ++ l2).
  by rewrite H2, H1, app_assoc.
Qed.

End Log.

Lemma first_call {A B} (ev : Event) (r : Exn + A) (k : A → M B) :
  (∀ a, appends (k a)) →
  ∃ later, log (snd (bind (call ev r) k start)) = ev :: later.
Proof.
  intros Hk. unfold bind, call. destruct r as [e|a]; [by exists []|].
  destruct (Hk a {| log := log start ++ [ev]; res := res start |})
    as [later Hlater].
  exists later. exact Hlater.
Qed.

Lemma appends_modify_res f : appends (modify_res f).
Proof. intros w. exists []. cbn. by rewrite app_nil_r. Qed.

Create HintDb appends.
#[local] Hint Resolve appends_ret appends_lift appends_call appends_bind
  appends_modify_res : appends.
#[local] Hint Unfold setHeader status send checkGrants checkSignature : appends.

Ltac appends_step :=
  first [ apply appends_bind; [|intros ?]
        | solve [auto with appends]
        | match goal with
          | |- appends (if ?b then _ else _) => destruct b
          | |- appends (match ?x with _ => _ end) => destruct x
          end ].

Ltac appends_all := autounfold with appends; repeat appends_step.

(** C10.  For every request the first call the handler makes is the
    connection to the ledger RPC endpoint, whatever the method and the
    query; and when that connection fails the handler fails with it,
    having neither looked at the method (a non-GET request gets no 405)
    nor validated anything (a request with missing parameters gets no
    400). *)
Theorem connect_precedes_method_and_validation chain env req :
  (∃ later, calls (handler chain env req) = EConnect (rpc chain) :: later) ∧
  (∀ e, connect env (rpc chain) = inl e →
        handler chain env req start
        = (inl e, {| log := [EConnect (rpc chain)]; res := fresh_response |})).
Proof.
  split.
  - unfold calls, handler. apply first_call. intros client. appends_all.
  - intros e Hconn. unfold handler, bind, call. by rewrite Hconn.
Qed.

Lemma connect_precedes_method_and_validation_witness :
  handler sample_chain (sample_env false None false two_page_registry)
    {| query := ∅; method := Some "POST" |} start
  = (inl (Rejected "connect ECONNREFUSED"),
     {| log := [EConnect (rpc sample_chain)]; res := fresh_response |}).
Proof.
  apply (connect_precedes_method_and_validation sample_chain
           (sample_env false None false two_page_registry)
           {| query := ∅; method := Some "POST" |}).
  reflexivity.
Defined.

(** ** After validation: resolution, verification, grant query *)

Lemma supplies_sample :
  supplies (GET session_query) "xion1session" "xion1meta" "68656c6c6f"
    "c2lnbmF0dXJl".
Proof. repeat split; try discriminate; vm_compute; reflexivity. Qed.

(** The path of a request that passed validation, step by step. *)
Lemma handler_validated chain env req usa meta msg sig :
  connect env (rpc chain) = inr tt →
  method req = Some "GET" →
  supplies req usa meta msg sig →
  handler chain env req start
  = match getAccount env usa with
    | inl e => threw e 200 (take 2 (full_run chain env usa meta msg))
    | inr None =>
        answered_errors 404 ["account not found"]
          (take 2 (full_run chain env usa meta msg))
    | inr (Some account) =>
        match pubkey account with
        | None =>
            answered_errors 404 ["public key not found"]
              (take 2 (full_run chain env usa meta msg))
        | Some pk =>
            match verdict_of chain env usa pk msg sig with
            | inl e => threw e 200 (take 3 (full_run chain env usa meta msg))
            | inr false =>
                answered_errors 400 ["invalid signature"]
                  (take 3 (full_run chain env usa meta msg))
            | inr true =>
                match fetch_json env (grants_url chain meta) with
                | inl e => threw e 200 (full_run chain env usa meta msg)
                | inr data =>
                    match grants_include data usa with
                    | inl e => threw e 200 (full_run chain env usa meta msg)
                    | inr valid =>
                        answered_valid valid (full_run chain env usa meta msg)
                    end
                end
            end
        end
    end.
Proof.
  intros Hconn Hget (Husa & Hmeta & Hmsg & Hsig & Nusa & Nmeta & Nmsg & Nsig).
  apply is_GET_true in Hget.
  unfold handler, bind, call, checkSignature, checkGrants, lift, verdict_of.
  rewrite Hconn, Hget, Husa, Hmeta, Hmsg, Hsig.
  destruct usa as [|a1 usa]; [done|]. destruct meta as [|a2 meta]; [done|].
  destruct msg as [|a3 msg]; [done|]. destruct sig as [|a4 sig]; [done|].
  cbn -[grants_url grants_include].
  destruct (getAccount env _) as [e|[account|]]; [reflexivity| |reflexivity].
  destruct (pubkey account) as [pk|]; [|reflexivity].
  destruct (verifyADR36Amino env _ _ _ _ _) as [e|[|]]; try reflexivity.
  destruct (fetch_json env _) as [e|data]; [reflexivity|].
  destruct (grants_include data _) as [e|valid]; reflexivity.
Qed.

Lemma presence_pass_nil usa meta msg sig :
  presence_pass usa meta msg sig = [] →
  not_ usa = false ∧ not_ meta && isString meta = false ∧
  not_ msg && isString msg = false ∧ not_ sig && isString sig = false.
Proof.
  rewrite presence_pass_pushes.
  destruct (not_ usa), (not_ meta && isString meta),
    (not_ msg && isString msg), (not_ sig && isString sig); cbn; done.
Qed.

(** Validation has two outcomes only: the four parameters are non-empty
    strings, or the request is answered 400 with a non-empty error list
    before any account is looked up. *)
Lemma handler_supplied_or_rejected chain env req :
  connect env (rpc chain) = inr tt →
  method req = Some "GET" →
  (∃ usa meta msg sig, supplies req usa meta msg sig) ∨
  (∃ e errors, handler chain env req start
               = answered_errors 400 (e :: errors) [EConnect (rpc chain)]).
Proof.
  intros Hconn Hget.
  destruct (presence_pass (query req !! "userSessionAddress")
              (query req !! "metaAccountAddress") (query req !! "message")
              (query req !! "signature")) as [|e errors] eqn:Hpass.
  2: { right. exists e, errors. rewrite <- Hpass.
       apply handler_presence_failure; [done..|]. by rewrite Hpass. }
  pose proof (presence_pass_nil _ _ _ _ Hpass) as (Nusa & Nmeta & Nmsg & Nsig).
  apply is_GET_true in Hget.
  unfold handler, bind, call. rewrite Hconn, Hget, Hpass.
  cbn [length Nat.ltb Nat.leb start log res app].
  destruct (query req !! "userSessionAddress") as [[usa|?]|] eqn:Husa;
    [|right; by eexists _, _..].
  destruct (query req !! "metaAccountAddress") as [[meta|?]|] eqn:Hmeta;
    [|right; by eexists _, _..].
  destruct (query req !! "message") as [[msg|?]|] eqn:Hmsg;
    [|right; by eexists _, _..].
  destruct (query req !! "signature") as [[sig|?]|] eqn:Hsig;
    [|right; by eexists _, _..].
  left. exists usa, meta, msg, sig. unfold supplies.
  destruct usa, meta, msg, sig; try discriminate. done.
Qed.

Lemma handler_connect_failed chain env req e :
  connect env (rpc chain) = inl e →
  handler chain env req start = threw e 200 [EConnect (rpc chain)].
Proof. intros Hconn. unfold handler, bind, call. by rewrite Hconn. Qed.

Lemma handler_not_GET chain env req :
  connect env (rpc chain) = inr tt →
  is_GET (method req) = false →
  handler chain env req start
  = answered_not_allowed (method req) [EConnect (rpc chain)].
Proof. intros Hconn Hget. unfold handler, bind, call. by rewrite Hconn, Hget. Qed.

(** X1.  Validation accepts exactly the requests whose four parameters are
    non-empty strings.  A GET request (connection made) either supplies
    four non-empty strings, and then the next call is the account lookup
    of userSessionAddress; or it does not, and then it is answered 400
    with a non-empty error list and no call beyond the connection. *)
Theorem validation_accepts_exactly_nonempty_strings chain env req :
  connect env (rpc chain) = inr tt →
  method req = Some "GET" →
  (∃ usa meta msg sig,
     supplies req usa meta msg sig ∧
     ∃ later, calls (handler chain env req)
              = EConnect (rpc chain) :: EGetAccount usa :: later) ∨
  ((∀ usa meta msg sig, ¬ supplies req usa meta msg sig) ∧
   ∃ e errors, handler chain env req start
               = answered_errors 400 (e :: errors) [EConnect (rpc chain)]).
Proof.
  intros Hconn Hget.
  assert (Hnext : ∀ usa meta msg sig, supplies req usa meta msg sig →
            ∃ later, calls (handler chain env req)
                     = EConnect (rpc chain) :: EGetAccount usa :: later).
  { intros usa meta msg sig Hs. unfold calls.
    rewrite (handler_validated chain env req usa meta msg sig) by done.
    destruct (getAccount env usa) as [e|[account|]]; [by eexists| |by eexists].
    destruct (pubkey account) as [pk|]; [|by eexists].
    destruct (verdict_of chain env usa pk msg sig) as [e|[|]];
      [by eexists| |by eexists].
    destruct (fetch_json env (grants_url chain meta)) as [e|data];
      [by eexists|].
    destruct (grants_include data usa); by eexists. }
  destruct (handler_supplied_or_rejected chain env req Hconn Hget)
    as [(usa & meta & msg & sig & Hs)|(e & errors & Hrun)].
  - left. exists usa, meta, msg, sig. eauto.
  - right. split; [|eauto].
    intros usa meta msg sig Hs. destruct (Hnext _ _ _ _ Hs) as [later Hcalls].
    unfold calls in Hcalls. rewrite Hrun in Hcalls. discriminate.
Qed.

Lemma validation_accepts_exactly_nonempty_strings_witness :
  ∃ later,
    calls (handler sample_chain
             (sample_env true None false one_page_registry)
             (GET session_query))
    = EConnect (rpc sample_chain) :: EGetAccount "xion1session" :: later.
Proof.
  destruct (validation_accepts_exactly_nonempty_strings sample_chain
              (sample_env true None false one_page_registry)
              (GET session_query) eq_refl eq_refl)
    as [(usa & meta & msg & sig & Hs & later & Hcalls)|(Hnone & _)].
  - exists later. destruct Hs as (Husa & _).
    vm_compute in Husa. injection Husa as <-. exact Hcalls.
  - destruct (Hnone _ _ _ _ supplies_sample).
Defined.

(** X2.  A validated GET request whose session address has no account on
    the ledger is answered 404 "account not found"; nothing is verified
    and no grant is queried. *)
Theorem unknown_account_is_404 chain env req usa meta msg sig :
  connect env (rpc chain) = inr tt →
  method req = Some "GET" →
  supplies req usa meta msg sig →
  getAccount env usa = inr None →
  handler chain env req start
  = answered_errors 404 ["account not found"]
      [EConnect (rpc chain); EGetAccount usa].
Proof.
  intros Hconn Hget Hs Hacct.
  by rewrite (handler_validated chain env req usa meta msg sig), Hacct.
Qed.

Lemma unknown_account_is_404_witness :
  handler sample_chain (env_of (inr tt) (inr None) (inr true) one_page_registry)
    (GET session_query) start
  = answered_errors 404 ["account not found"]
      [EConnect (rpc sample_chain); EGetAccount "xion1session"].
Proof.
  exact (unknown_account_is_404 sample_chain
           (env_of (inr tt) (inr None) (inr true) one_page_registry)
           (GET session_query) _ _ _ _ eq_refl eq_refl supplies_sample eq_refl).
Defined.

(** X3.  A validated GET request whose session account exists but has no
    public key is answered 404 "public key not found"; nothing is verified
    and no grant is queried. *)
Theorem keyless_account_is_404 chain env req usa meta msg sig account :
  connect env (rpc chain) = inr tt →
  method req = Some "GET" →
  supplies req usa meta msg sig →
  getAccount env usa = inr (Some account) →
  pubkey account = None →
  handler chain env req start
  = answered_errors 404 ["public key not found"]
      [EConnect (rpc chain); EGetAccount usa].
Proof.
  intros Hconn Hget Hs Hacct Hkey.
  by rewrite (handler_validated chain env req usa meta msg sig), Hacct, Hkey.
Qed.

Lemma keyless_account_is_404_witness :
  handler sample_chain
    (env_of (inr tt) (inr (Some keyless_account)) (inr true) one_page_registry)
    (GET session_query) start
  = answered_errors 404 ["public key not found"]
      [EConnect (rpc sample_chain); EGetAccount "xion1session"].
Proof.
  exact (keyless_account_is_404 sample_chain
           (env_of (inr tt) (inr (Some keyless_account)) (inr true)
              one_page_registry)
           (GET session_query) _ _ _ _ keyless_account
           eq_refl eq_refl supplies_sample eq_refl eq_refl).
Defined.

(** X4.  When the verifier rejects the signature (for the session address,
    the account's key, the decoded message and the decoded signature) the
    request is answered 400 "invalid signature" and the grants endpoint is
    never fetched. *)
Theorem invalid_signature_is_400 chain env req usa meta msg sig account pk :
  connect env (rpc chain) = inr tt →
  method req = Some "GET" →
  supplies req usa meta msg sig →
  getAccount env usa = inr (Some account) →
  pubkey account = Some pk →
  verdict_of chain env usa pk msg sig = inr false →
  handler chain env req start
  = answered_errors 400 ["invalid signature"]
      [EConnect (rpc chain); EGetAccount usa;
       EVerify (bech32PrefixAccAddr chain) usa (hex_to_text env msg)].
Proof.
  intros Hconn Hget Hs Hacct Hkey Hverdict.
  by rewrite (handler_validated chain env req usa meta msg sig),
    Hacct, Hkey, Hverdict.
Qed.

Lemma invalid_signature_is_400_witness :
  handler sample_chain
    (env_of (inr tt) (inr (Some session_account)) (inr false) one_page_registry)
    (GET session_query) start
  = answered_errors 400 ["invalid signature"]
      [EConnect (rpc sample_chain); EGetAccount "xion1session";
       EVerify "xion" "xion1session" "68656c6c6f"].
Proof.
  exact (invalid_signature_is_400 sample_chain
           (env_of (inr tt) (inr (Some session_account)) (inr false)
              one_page_registry)
           (GET session_query) _ _ _ _ session_account _
           eq_refl eq_refl supplies_sample eq_refl eq_refl eq_refl).
Defined.

(** X5.  End to end: for a validated request whose signature verifies and
    whose grants query (keyed by metaAccountAddress) returns a page of the
    declared shape, the answer is 200 with valid true exactly when some
    grant of the page has userSessionAddress as its grantee; the four
    calls are made once each, in order. *)
Theorem verified_request_answers_grantee_listed chain env req usa meta msg sig
    account pk (page : GrantsResponse) :
  connect env (rpc chain) = inr tt →
  method req = Some "GET" →
  supplies req usa meta msg sig →
  getAccount env usa = inr (Some account) →
  pubkey account = Some pk →
  verdict_of chain env usa pk msg sig = inr true →
  fetch_json env (grants_url chain meta) = inr (json_of_GrantsResponse page) →
  ∃ valid,
    handler chain env req start
    = answered_valid valid (full_run chain env usa meta msg) ∧
    (valid = true ↔ ∃ g, g ∈ grants page ∧ grantee g = usa).
Proof.
  intros Hconn Hget Hs Hacct Hkey Hverdict Hfetch.
  rewrite (handler_validated chain env req usa meta msg sig) by done.
  rewrite Hacct, Hkey, Hverdict, Hfetch, grants_include_declared.
  eexists. split; [reflexivity|]. apply grantee_listed_iff.
Qed.

Lemma verified_request_answers_grantee_listed_witness :
  ∃ valid,
    handler sample_chain
      (env_of (inr tt) (inr (Some session_account)) (inr true)
         one_page_registry)
      (GET session_query) start
    = answered_valid valid
        (full_run sample_chain
           (env_of (inr tt) (inr (Some session_account)) (inr true)
              one_page_registry)
           "xion1session" "xion1meta" "68656c6c6f") ∧
    (valid = true ↔ ∃ g, g ∈ grants second_page ∧ grantee g = "xion1session").
Proof.
  exact (verified_request_answers_grantee_listed sample_chain
           (env_of (inr tt) (inr (Some session_account)) (inr true)
              one_page_registry)
           (GET session_query) _ _ _ _ session_account _ second_page
           eq_refl eq_refl supplies_sample eq_refl eq_refl eq_refl eq_refl).
Defined.

(** X6.  A failure of the grant stage is not answered: when the signature
    verified and the grants fetch rejects, or its body makes the grant
    check throw, the handler throws that error with the status already
    set to 200 and no body sent. *)
Theorem grant_stage_failure_is_unanswered chain env req usa meta msg sig
    account pk :
  connect env (rpc chain) = inr tt →
  method req = Some "GET" →
  supplies req usa meta msg sig →
  getAccount env usa = inr (Some account) →
  pubkey account = Some pk →
  verdict_of chain env usa pk msg sig = inr true →
  (∀ e, fetch_json env (grants_url chain meta) = inl e →
        handler chain env req start
        = threw e 200 (full_run chain env usa meta msg)) ∧
  (∀ data e, fetch_json env (grants_url chain meta) = inr data →
             grants_include data usa = inl e →
             handler chain env req start
             = threw e 200 (full_run chain env usa meta msg)).
Proof.
  intros Hconn Hget Hs Hacct Hkey Hverdict.
  rewrite (handler_validated chain env req usa meta msg sig) by done.
  rewrite Hacct, Hkey, Hverdict. split.
  - by intros e ->.
  - by intros data e -> ->.
Qed.

Lemma grant_stage_failure_is_unanswered_witness :
  handler sample_chain
    (env_of (inr tt) (inr (Some session_account)) (inr true)
       (λ _, inr grants_text_body))
    (GET session_query) start
  = threw (TypeError "data.grants.map is not a function") 200
      [EConnect (rpc sample_chain); EGetAccount "xion1session";
       EVerify "xion" "xion1session" "68656c6c6f";
       EFetch (grants_url sample_chain "xion1meta")].
Proof.
  exact (proj2 (grant_stage_failure_is_unanswered sample_chain
                  (env_of (inr tt) (inr (Some session_account)) (inr true)
                     (λ _, inr grants_text_body))
                  (GET session_query) _ _ _ _ session_account _
                  eq_refl eq_refl supplies_sample eq_refl eq_refl eq_refl)
           grants_text_body _ eq_refl eq_refl).
Defined.

(** X7.  The handler catches nothing from the resolver or the verifier:
    when the account lookup rejects, or the verifier throws, the handler
    throws the same error, with no body sent and no later call made. *)
Theorem resolver_and_verifier_errors_propagate chain env req usa meta msg sig :
  connect env (rpc chain) = inr tt →
  method req = Some "GET" →
  supplies req usa meta msg sig →
  (∀ e, getAccount env usa = inl e →
        handler chain env req start
        = threw e 200 [EConnect (rpc chain); EGetAccount usa]) ∧
  (∀ account pk e,
     getAccount env usa = inr (Some account) →
     pubkey account = Some pk →
     verdict_of chain env usa pk msg sig = inl e →
     handler chain env req start
     = threw e 200
         [EConnect (rpc chain); EGetAccount usa;
          EVerify (bech32PrefixAccAddr chain) usa (hex_to_text env msg)]).
Proof.
  intros Hconn Hget Hs.
  rewrite (handler_validated chain env req usa meta msg sig) by done. split.
  - by intros e ->.
  - by intros account pk e -> -> ->.
Qed.

Lemma resolver_and_verifier_errors_propagate_witness :
  handler sample_chain
    (env_of (inr tt) (inr (Some session_account))
       (inl (Rejected "Unmatched signer")) one_page_registry)
    (GET session_query) start
  = threw (Rejected "Unmatched signer") 200
      [EConnect (rpc sample_chain); EGetAccount "xion1session";
       EVerify "xion" "xion1session" "68656c6c6f"].
Proof.
  exact (proj2 (resolver_and_verifier_errors_propagate sample_chain
                  (env_of (inr tt) (inr (Some session_account))
                     (inl (Rejected "Unmatched signer")) one_page_registry)
                  (GET session_query) _ _ _ _
                  eq_refl eq_refl supplies_sample)
           session_account _ _ eq_refl eq_refl eq_refl).
Defined.

(** ** What holds on every path of the handler *)

(** Splits a goal about [handler chain env req start] into the paths of
    the handler, rewriting the run into its outcome on each. *)
Ltac handler_paths chain env req :=
  let Hconn := fresh "Hconn" in
  let Hget := fresh "Hget" in
  let Hs := fresh "Hs" in
  let Hrun := fresh "Hrun" in
  destruct (connect env (rpc chain)) as [?|[]] eqn:Hconn;
  [ rewrite !(handler_connect_failed chain env req _ Hconn)
  | destruct (is_GET (method req)) eqn:Hget;
    [ pose proof Hget as Hget'; apply is_GET_true in Hget;
      destruct (handler_supplied_or_rejected chain env req Hconn Hget)
        as [(usa & meta & msg & sig & Hs)|(?e & ?errors & Hrun)];
      [ rewrite !(handler_validated chain env req usa meta msg sig Hconn Hget Hs);
        pose proof Hs as (Husa & Hmeta & Hmsg & Hsig & _);
        destruct (getAccount env usa) as [?|[account|]] eqn:Hacct;
        [ | destruct (pubkey account) as [pk|] eqn:Hkey;
            [ destruct (verdict_of chain env usa pk msg sig) as [?|[|]]
                eqn:Hverdict;
              [ | destruct (fetch_json env (grants_url chain meta))
                    as [?|data] eqn:Hfetch;
                  [ | destruct (grants_include data usa) as [?|valid]
                        eqn:Hgrants ]
                | ]
            | ]
        | ]
      | rewrite !Hrun ]
    | rewrite !(handler_not_GET chain env req Hconn Hget) ] ].

(** X8.  On every path, the handler has sent a body exactly when it
    returns normally: a run that throws has sent nothing, and a run that
    returns has answered. *)
Theorem handler_answers_iff_returns chain env req :
  is_Some (body (response (handler chain env req)))
  ↔ result (handler chain env req) = inr tt.
Proof.
  unfold response, result.
  handler_paths chain env req; cbn; split; intros H;
    first [done | by eexists | by destruct H].
Qed.

(** X9.  Every answer has one of three shapes.  A GET request is answered
    200 with a valid flag, or 400 or 404 with a non-empty error list, in
    both cases without any header; any other method is answered 405 with
    the Allow header and a text body. *)
Theorem handler_answer_shapes chain env req :
  result (handler chain env req) = inr tt →
  let r := response (handler chain env req) in
  (method req = Some "GET" ∧ statusCode r = 200%Z ∧ headers r = [] ∧
   ∃ valid, body r = Some (JsonValid valid)) ∨
  (method req = Some "GET" ∧ (statusCode r = 400%Z ∨ statusCode r = 404%Z) ∧
   headers r = [] ∧ ∃ e errors, body r = Some (JsonErrors (e :: errors))) ∨
  (method req ≠ Some "GET" ∧ statusCode r = 405%Z ∧
   headers r = [("Allow", ["GET"])] ∧ ∃ text, body r = Some (EndText text)).
Proof.
  unfold response, result.
  handler_paths chain env req; cbn; intros H; try discriminate H.
  all: try (right; left; by eauto 10).
  - left. eauto 10.
  - right. right. apply is_GET_false in Hget. eauto 10.
Qed.

Lemma handler_answer_shapes_witness :
  let r := response (handler sample_chain
                       (sample_env true None false one_page_registry)
                       (GET session_query)) in
  statusCode r = 404%Z ∧ body r = Some (JsonErrors ["account not found"]).
Proof.
  intros r.
  destruct (handler_answer_shapes sample_chain
              (sample_env true None false one_page_registry)
              (GET session_query) eq_refl)
    as [(_ & H200 & _)|[(_ & _ & _ & _)|(Hm & _)]].
  - discriminate H200.
  - split; reflexivity.
  - destruct Hm. reflexivity.
Defined.

(** X10.  The flow is linear: on every path the calls made are an initial
    segment of connect, account lookup of userSessionAddress, signature
    verification, grants fetch for metaAccountAddress.  No collaborator is
    called twice and none out of order. *)
Theorem handler_calls_in_order chain env req :
  calls (handler chain env req)
  `prefix_of` full_run chain env
                (narrowed (query req !! "userSessionAddress"))
                (narrowed (query req !! "metaAccountAddress"))
                (narrowed (query req !! "message")).
Proof.
  unfold calls.
  handler_paths chain env req;
    try rewrite Husa, Hmeta, Hmsg; cbn; by eexists.
Qed.

(** X11.  The grants endpoint is fetched only for a verified session: if
    a fetch appears among the calls, it is the grants URL of
    metaAccountAddress, the session address has an account with a public
    key, and the verifier accepted the signature. *)
Theorem grants_fetched_only_after_verification chain env req url :
  EFetch url ∈ calls (handler chain env req) →
  url = grants_url chain (narrowed (query req !! "metaAccountAddress")) ∧
  ∃ account pk,
    getAccount env (narrowed (query req !! "userSessionAddress"))
    = inr (Some account) ∧
    pubkey account = Some pk ∧
    verdict_of chain env (narrowed (query req !! "userSessionAddress")) pk
      (narrowed (query req !! "message")) (narrowed (query req !! "signature"))
    = inr true.
Proof.
  unfold calls.
  handler_paths chain env req;
    try rewrite Husa, Hmeta, Hmsg, Hsig; cbn; intros H;
    repeat (apply elem_of_cons in H as [H|H]; [try discriminate H|]);
    try (by apply elem_of_nil in H);
    injection H as ->; eauto 10.
Qed.

Lemma grants_fetched_only_after_verification_witness :
  ∃ account pk,
    getAccount (sample_env true (Some session_account) true one_page_registry)
      "xion1session" = inr (Some account) ∧
    pubkey account = Some pk.
Proof.
  destruct (grants_fetched_only_after_verification sample_chain
              (sample_env true (Some session_account) true one_page_registry)
              (GET session_query) (grants_url sample_chain "xion1meta"))
    as (_ & account & pk & Hacct & Hkey & _).
  - apply list_elem_of_In. vm_compute. do 3 right. left. reflexivity.
  - exists account, pk. exact (conj Hacct Hkey).
Defined.

(** ** The grant check on a body of any shape *)

Lemma grantee_column_any (items : list Json) :
  JNull ∉ items →
  map_throwing (λ grant, get grant "grantee") items
  = inr (map grantee_of items).
Proof.
  induction items as [|item items IH]; [reflexivity|].
  intros [Hitem Hitems]%not_elem_of_cons.
  cbn [map map_throwing]. rewrite (IH Hitems).
  destruct item; try reflexivity. done.
Qed.

Lemma includes_true_iff (column : list (option Json)) (ge : string) :
  includes column ge = true ↔ Some (JStr ge) ∈ column.
Proof.
  unfold includes. rewrite existsb_exists. split.
  - intros ([[| | |t| |]|] & Hin & Heq); try discriminate.
    apply String.eqb_eq in Heq as ->. by apply list_elem_of_In.
  - intros Hin. exists (Some (JStr ge)). split; [by apply list_elem_of_In|].
    apply String.eqb_refl.
Qed.

(** X12.  When the grants field is a list without [null], the grant check
    never throws, whatever the elements are, and answers true exactly when
    some element is an object whose grantee property is the supplied
    address as a string.  Elements that are not objects, that lack a
    grantee, or whose grantee is not a string are passed over. *)
Theorem grants_include_any_list (data : Json) (items : list Json) (ge : string) :
  get data "grants" = inr (Some (JArr items)) →
  JNull ∉ items →
  ∃ b, grants_include data ge = inr b ∧
       (b = true ↔ ∃ props, JObj props ∈ items ∧
                            own_property "grantee" props = Some (JStr ge)).
Proof.
  intros Hget Hnull. unfold grants_include. rewrite Hget. cbn [call_map].
  rewrite (grantee_column_any items Hnull). eexists. split; [reflexivity|].
  rewrite includes_true_iff, list_elem_of_fmap. split.
  - intros (item & Hgrantee & Hin). destruct item; try discriminate.
    exists props. by split.
  - intros (props & Hin & Hgrantee). exists (JObj props). by split.
Qed.

Lemma grants_include_any_list_witness :
  ∃ b, grants_include ragged_body "xion1session" = inr b ∧
       (b = true ↔ ∃ props, JObj props ∈ [JStr "xion1session";
                                          JObj [("grantee", JNum "7")];
                                          JObj [("grantee", JStr "xion1session")]] ∧
                            own_property "grantee" props
                            = Some (JStr "xion1session")).
Proof.
  apply (grants_include_any_list ragged_body _ "xion1session" eq_refl).
  intros Hin.
  repeat (apply elem_of_cons in Hin as [Hin|Hin]; [discriminate Hin|]).
  by apply elem_of_nil in Hin.
Defined.

(** X13.  One [null] in the grants list makes the grant check throw a
    TypeError, wherever it stands and even when a matching grant is
    listed: the grantee column is built in full before it is searched. *)
Theorem grants_include_null_element (data : Json) (items : list Json)
    (ge : string) :
  get data "grants" = inr (Some (JArr items)) →
  JNull ∈ items →
  ∃ msg, grants_include data ge = inl (TypeError msg).
Proof.
  intros Hget Hnull. unfold grants_include. rewrite Hget. cbn [call_map].
  assert (∃ msg, map_throwing (λ grant, get grant "grantee") items
                 = inl (TypeError msg)) as [msg ->]; [|by eexists].
  clear Hget. induction items as [|item items IH]; [by apply elem_of_nil in Hnull|].
  apply elem_of_cons in Hnull as [<-|Hnull]; [by eexists|].
  destruct (IH Hnull) as [msg Hrest]. cbn [map_throwing]. rewrite Hrest.
  destruct (get item "grantee") as [e|v] eqn:Hitem; [|by eexists].
  destruct item; try discriminate Hitem. injection Hitem as <-. by eexists.
Qed.

Lemma grants_include_null_element_witness :
  ∃ msg, grants_include null_after_match_body "xion1session"
         = inl (TypeError msg).
Proof.
  apply (grants_include_null_element null_after_match_body _ "xion1session"
           eq_refl).
  apply list_elem_of_further, list_elem_of_here.
Defined.

(** X14.  The handler reads the four required parameters and nothing else
    of the query: two requests with the same method whose queries agree on
    userSessionAddress, metaAccountAddress, message and signature have the
    same outcome, whatever else the queries hold. *)
Theorem handler_reads_four_parameters chain env (q q' : gmap string QueryVal)
    (m : option string) :
  (∀ p, p ∈ required → q !! p = q' !! p) →
  handler chain env {| query := q; method := m |} start
  = handler chain env {| query := q'; method := m |} start.
Proof.
  intros Hagree. unfold handler. cbn [query method].
  rewrite (Hagree "userSessionAddress"), (Hagree "metaAccountAddress"),
    (Hagree "message"), (Hagree "signature") by listed.
  reflexivity.
Qed.

Lemma handler_reads_four_parameters_witness :
  handler sample_chain (sample_env true None false one_page_registry)
    {| query := <[ "debug" := QStr "1" ]> session_query;
       method := Some "GET" |} start
  = handler sample_chain (sample_env true None false one_page_registry)
      {| query := session_query; method := Some "GET" |} start.
Proof.
  apply (handler_reads_four_parameters sample_chain
           (sample_env true None false one_page_registry)
           (<[ "debug" := QStr "1" ]> session_query) session_query).
  intros p Hp. apply lookup_insert_ne. intros <-. by not_listed Hp.
Defined.
